(** * Authentication handlers of package [server] (server/http_server.go)

    A shallow embedding of the five HTTP handlers ([register], [login],
    [twoFactor], [protected], [logout]), of the process-wide table [users]
    they share, and of the part of [net/http] they touch (request fields,
    cookies, the response writer, [http.Error]).

    - The table [users] is a [map[string]Login]: a [gmap string Login].
      Values of a Go map are copied on every read ([user, ok := users[email]],
      [for _, u := range users]); a write reaches the table only through an
      assignment [users[email] = ...].
    - A handler is a function of the response writer, the request, the clock
      reading of the request and the state of the process; it returns the
      written response with the new state, or ends the process ([log.Fatal]).
    - The helpers the handlers call and the package does not define in this
      file ([hashedPassword], [checkPasswordHash], [generateSecretKey],
      [generateToken], [verifyTOTP], [PreAuthorize], [Authorize]) are the
      fields of the class [Helpers]: the development holds for every
      implementation of them. *)

From Stdlib Require Import ZArith.
From stdpp Require Import base decidable option list strings gmap fin_maps.

Local Open Scope Z_scope.
Local Open Scope string_scope.

(** ** Package [time] *)

Module time.
(** A [time.Time] as nanoseconds since the epoch, a [time.Duration] as
    nanoseconds. *)
Definition Time := Z.
Definition Duration := Z.
Definition Second : Duration := 1000000000.
Definition Minute : Duration := 60 * Second.
Definition Hour : Duration := 60 * Minute.
Definition Add (t : Time) (d : Duration) : Time := t + d.
End time.

(** A Go [error]: [None] is [nil]. *)
Definition error := string.

(** ** Package [net/http] *)

Module http.

Definition MethodPost : string := "POST".

Definition StatusOK : Z := 200.
Definition StatusBadRequest : Z := 400.
Definition StatusUnauthorized : Z := 401.
Definition StatusNotFound : Z := 404.
Definition StatusMethodNotAllowed : Z := 405.
Definition StatusConflict : Z := 409.

(** [http.Cookie], with the fields the handlers set. [Expires = None] is the
    zero [time.Time] (no Expires attribute). *)
Record Cookie := mkCookie {
  Name : string;
  Value : string;
  Expires : option time.Time;
  HttpOnly : bool
}.

(** [*http.Request]: the method, the parsed form and the cookies sent by the
    client (name and value only: a request carries no cookie attributes). *)
Record Request := mkRequest {
  Method : string;
  Form : list (string * string);
  Cookies : list (string * string)
}.

(** First value bound to [key], as [Form.Get] and [Request.Cookie] read. *)
Fixpoint first_of (key : string) (l : list (string * string)) : option string :=
  match l with
  | [] => None
  | (k, v) :: l' => if decide (k = key) then Some v else first_of key l'
  end.

(** [r.FormValue(key)]: the first value, or the empty string. *)
Definition FormValue (r : Request) (key : string) : string :=
  default "" (first_of key (Form r)).

(** [r.Cookie(name)]: the value of the named cookie; [None] is
    [ErrNoCookie]. *)
Definition Request_Cookie (r : Request) (name : string) : option string :=
  first_of name (Cookies r).

(** What a handler writes to the body: a line of text ([http.Error]) or a
    JSON object ([json.NewEncoder(w).Encode]) of string fields. *)
Inductive Payload :=
| Text (line : string)
| JSON (fields : list (string * string)).

(** [http.ResponseWriter]: [Status = 0] until the header is written. *)
Record ResponseWriter := mkResponse {
  Status : Z;
  Header : gmap string string;
  SetCookies : list Cookie;
  Body : list Payload
}.

(** The writer the server hands to a handler. *)
Definition NewResponse : ResponseWriter :=
  {| Status := 0; Header := ∅; SetCookies := []; Body := [] |}.

(** [w.Header().Set(k, v)]. *)
Definition Header_Set (w : ResponseWriter) (k v : string) : ResponseWriter :=
  {| Status := Status w; Header := <[k := v]> (Header w);
     SetCookies := SetCookies w; Body := Body w |}.

(** [w.WriteHeader(code)]: only the first call counts. *)
Definition WriteHeader (w : ResponseWriter) (code : Z) : ResponseWriter :=
  if decide (Status w = 0)
  then {| Status := code; Header := Header w;
          SetCookies := SetCookies w; Body := Body w |}
  else w.

(** [w.Write]: writes the header with [StatusOK] if none was written. *)
Definition Write (w : ResponseWriter) (p : Payload) : ResponseWriter :=
  let w := WriteHeader w StatusOK in
  {| Status := Status w; Header := Header w;
     SetCookies := SetCookies w; Body := Body w ++ [p] |}.

(** [http.SetCookie(w, cookie)]: adds a Set-Cookie header. *)
Definition SetCookie (w : ResponseWriter) (c : Cookie) : ResponseWriter :=
  {| Status := Status w; Header := Header w;
     SetCookies := SetCookies w ++ [c]; Body := Body w |}.

(** [http.Error(w, msg, code)]. *)
Definition Error (w : ResponseWriter) (msg : string) (code : Z) : ResponseWriter :=
  let w := Header_Set w "Content-Type" "text/plain; charset=utf-8" in
  let w := Header_Set w "X-Content-Type-Options" "nosniff" in
  let w := WriteHeader w code in
  Write w (Text msg).

(** [json.NewEncoder(w).Encode(response)]. *)
Definition Encode (w : ResponseWriter) (response : list (string * string)) : ResponseWriter :=
  Write w (JSON response).

End http.

(** ** Package [server] *)

Module server.
Import http.

(** [type Login struct]: five strings, the empty string for "not set". *)
Record Login := mkLogin {
  HashedPassword : string;
  SessionToken : string;
  CSRFToken : string;
  Pending_2fa_Token : string;
  TOTPSecret : string
}.

#[export] Instance Login_eq_dec : EqDecision Login.
Proof. solve_decision. Defined.

(** Modelled from the spec: the helpers that the handlers call and that
    http_server.go does not define, with the interfaces of spec 6
    ([hash], [verifyPassword], [newTOTPSecret], [verifyTOTP]), spec 4.1
    ([generate(length)]) and spec 4.3 (the two operations of the session
    validator, "pure reads against IdentityStore"). Nothing is assumed of
    what they compute. A helper reports a failure through the error value
    of its Go signature; a helper without one ([generateToken]) is taken in
    its normal operation, where it returns a token: a helper that ends the
    process by itself is outside this model, and no statement below says
    that a handler cannot be ended by one.
    [Entropy] is the state of the random sources of the process (the token
    and secret generators draw from it; the order of a [range] over a map
    depends on it). [verifyTOTP], [PreAuthorize] and [Authorize] may read the
    clock; [PreAuthorize] and [Authorize] take the request and read the
    table [users]. *)
Class Helpers := {
  Entropy : Type;
  hashedPassword : string → Entropy → (string * option error) * Entropy;
  checkPasswordHash : string → string → bool;
  generateSecretKey : string → Entropy → (string * string * option error) * Entropy;
  generateToken : Z → Entropy → string * Entropy;
  verifyTOTP : time.Time → string → string → bool;
  PreAuthorize : time.Time → Request → gmap string Login → option error;
  Authorize : time.Time → Request → gmap string Login → option error;
  (** the order in which [for _, u := range users] visits the table *)
  rangeOrder : Entropy → gmap string Login → list (string * Login);
  rangeOrder_perm : ∀ ρ (m : gmap string Login), rangeOrder ρ m ≡ₚ map_to_list m
}.

Section handlers.
Context `{H : Helpers}.

(** The state of the process: [var users = map[string]Login{}] and the
    random sources. *)
Record Server := mkServer {
  users : gmap string Login;
  entropy : Entropy
}.

(** How a handler ends: it returns the response with the state of the
    process, or [log.Fatal] ends the process (the message logged, and the
    state the process was in when it ended). *)
Inductive Outcome :=
| Served (w : ResponseWriter) (σ : Server)
| Fatal (v : string) (σ : Server).

Definition Handler := ResponseWriter → Request → time.Time → Server → Outcome.

Definition register : Handler := λ w r now σ,
  if decide (Method r ≠ MethodPost) then
    Served (Error w "Method not allowed" StatusMethodNotAllowed) σ
  else
  let email := FormValue r "email" in
  let password := FormValue r "password" in
  if decide (String.length email = 0%nat ∨ String.length password = 0%nat) then
    Served (Error w "email or password is empty" StatusBadRequest) σ
  else
  match users σ !! email with
  | Some _ => Served (Error w "email already exists" StatusBadRequest) σ
  | None =>
    let '(hashed, _, ρ1) := hashedPassword password (entropy σ) in
    let '(secret, qrURL, err, ρ2) := generateSecretKey email ρ1 in
    match err with
    | Some e =>
      Fatal ("Error generating secret key:" +:+ e)
            {| users := users σ; entropy := ρ2 |}
    | None =>
      let users' :=
        <[email := {| HashedPassword := hashed; SessionToken := "";
                      CSRFToken := ""; Pending_2fa_Token := "";
                      TOTPSecret := secret |}]> (users σ) in
      let response :=
        [("message", "Registration successful. Please setup TOTP Authentication.");
         ("qr_code_url", qrURL)] in
      let w := Header_Set w "Content-Type" "application/json" in
      Served (Encode w response) {| users := users'; entropy := ρ2 |}
    end
  end.

Definition login : Handler := λ w r now σ,
  if decide (Method r ≠ MethodPost) then
    Served (Error w "Method not allowed" StatusMethodNotAllowed) σ
  else
  let email := FormValue r "email" in
  let password := FormValue r "password" in
  match users σ !! email with
  | None => Served (Error w "Invalid email or password" StatusUnauthorized) σ
  | Some user =>
    if negb (checkPasswordHash password (HashedPassword user)) then
      Served (Error w "Invalid email or password" StatusUnauthorized) σ
    else
    let '(pending, ρ1) := generateToken 32 (entropy σ) in
    let users' :=
      <[email := {| HashedPassword := HashedPassword user; SessionToken := "";
                    CSRFToken := ""; Pending_2fa_Token := pending;
                    TOTPSecret := TOTPSecret user |}]> (users σ) in
    let w := SetCookie w {| Name := "pending_2fa_token"; Value := pending;
                            Expires := Some (time.Add now (5 * time.Minute));
                            HttpOnly := true |} in
    let response :=
      [("message", "Email and password validated. You have 5 minutes to complete TOTP Authentication.")] in
    let w := Header_Set w "Content-Type" "application/json" in
    Served (Encode w response) {| users := users'; entropy := ρ1 |}
  end.

(** The loop of [twoFactor]:
    [for _, u := range users { if u.Pending_2fa_Token == pendingToken { user = &u; break } }].
    [u] is the loop variable, a copy of the visited value; the result is
    that copy ([None] for [user == nil]). *)
Fixpoint rangeFind (pendingToken : string) (visit : list (string * Login)) : option Login :=
  match visit with
  | [] => None
  | (_, u) :: rest =>
    if decide (Pending_2fa_Token u = pendingToken) then Some u
    else rangeFind pendingToken rest
  end.

Definition twoFactor : Handler := λ w r now σ,
  if decide (Method r ≠ MethodPost) then
    Served (Error w "Method not allowed" StatusMethodNotAllowed) σ
  else
  match Request_Cookie r "pending_2fa_token" with
  | None => Served (Error w "Unauthorized" StatusUnauthorized) σ
  | Some t =>
    if decide (t = "") then Served (Error w "Unauthorized" StatusUnauthorized) σ
    else
    let pendingToken := t in
    match PreAuthorize now r (users σ) with
    | Some errA => Served (Error w "Unauthorized" StatusUnauthorized) σ
    | None =>
      match rangeFind pendingToken (rangeOrder (entropy σ) (users σ)) with
      | None => Served (Error w "Unauthorized" StatusUnauthorized) σ
      | Some u =>
        let user_otp := FormValue r "otp" in
        let secondAuthPassed := verifyTOTP now (TOTPSecret u) user_otp in
        if negb secondAuthPassed then
          Served (Error w "Unauthorized" StatusUnauthorized) σ
        else
        let '(sessionToken, ρ1) := generateToken 32 (entropy σ) in
        let '(csrfToken, ρ2) := generateToken 32 ρ1 in
        let w := SetCookie w {| Name := "session_token"; Value := sessionToken;
                                Expires := Some (time.Add now (24 * time.Hour));
                                HttpOnly := true |} in
        let w := SetCookie w {| Name := "csrf_token"; Value := csrfToken;
                                Expires := Some (time.Add now (24 * time.Hour));
                                HttpOnly := false |} in
        (* user.SessionToken = sessionToken; user.CSRFToken = csrfToken;
           user.Pending_2fa_Token = "": [user] points at the loop variable,
           so the three assignments change that copy; no
           [users[email] = ...] follows, the table is the one read. *)
        let u := {| HashedPassword := HashedPassword u; SessionToken := sessionToken;
                    CSRFToken := csrfToken; Pending_2fa_Token := "";
                    TOTPSecret := TOTPSecret u |} in
        let w := SetCookie w {| Name := "pending_2fa_token"; Value := "";
                                Expires := Some now; HttpOnly := false |} in
        let response := [("message", "TOTP Authentication Successful.")] in
        let w := Header_Set w "Content-Type" "application/json" in
        Served (Encode w response) {| users := users σ; entropy := ρ2 |}
      end
    end
  end.

Definition protected : Handler := λ w r now σ,
  if decide (Method r ≠ MethodPost) then
    Served (Error w "Method not allowed" StatusMethodNotAllowed) σ
  else
  match Authorize now r (users σ) with
  | Some err => Served (Error w "Unauthorized" StatusUnauthorized) σ
  | None =>
    let response := [("message", "Protected route successfully accessed.")] in
    let w := Header_Set w "Content-Type" "application/json" in
    Served (Encode w response) σ
  end.

Definition logout : Handler := λ w r now σ,
  if decide (Method r ≠ MethodPost) then
    Served (Error w "Method not allowed" StatusMethodNotAllowed) σ
  else
  match Authorize now r (users σ) with
  | Some err => Served (Error w "Unauthorized" StatusUnauthorized) σ
  | None =>
    let email := FormValue r "email" in
    match users σ !! email with
    | None => Served (Error w "User not found" StatusNotFound) σ
    | Some user =>
      let user := {| HashedPassword := HashedPassword user; SessionToken := "";
                     CSRFToken := ""; Pending_2fa_Token := Pending_2fa_Token user;
                     TOTPSecret := TOTPSecret user |} in
      let users' := <[email := user]> (users σ) in
      let w := SetCookie w {| Name := "session_token"; Value := "";
                              Expires := Some now; HttpOnly := false |} in
      let w := SetCookie w {| Name := "csrf_token"; Value := "";
                              Expires := Some now; HttpOnly := false |} in
      let response := [("message", "Logged Out")] in
      let w := Header_Set w "Content-Type" "application/json" in
      Served (Encode w response) {| users := users'; entropy := entropy σ |}
    end
  end.

(** [Http_Server]: the routes registered with [http.HandleFunc]. *)
Definition Http_Server : list (string * Handler) :=
  [("/register", register); ("/login", login); ("/2fa", twoFactor);
   ("/logout", logout); ("/protected", protected)].

End handlers.

Arguments Server : clear implicits.
Arguments Server {H}.
Arguments Outcome {H}.
Arguments Handler {H}.

(** ** The session validator *)

(** Modelled from the spec: what "an Identity holds both tokens" means on a
    [Login]. Spec 3 has [sessionToken] and [csrfToken] optional, "present
    only while an authenticated session is active"; a [Login] field that is
    the empty string is a token that is not set. The identity holds the
    presented pair when both fields are set and equal to the presented
    ones. *)
Definition holdsSession (sessionToken csrfToken : string) (u : Login) : bool :=
  bool_decide (sessionToken ≠ "" ∧ csrfToken ≠ "" ∧
               SessionToken u = sessionToken ∧ CSRFToken u = csrfToken).

(** Modelled from the spec: [Authorize], called by [protected] and
    [logout], is defined in another file of the package. Spec 4.3:
    "authorize(presentedSessionToken, presentedCsrfToken): true iff some
    Identity holds both tokens simultaneously (exact match on both)". *)
Definition authorize (us : gmap string Login) (sessionToken csrfToken : string) : bool :=
  existsb (λ eu, holdsSession sessionToken csrfToken eu.2) (map_to_list us).

(** Modelled from the spec: the tokens are presented as the cookies
    [session_token] and [csrf_token] (spec 6); a missing cookie is
    Unauthorized (spec 7). *)
Definition specAuthorize (r : Request) (us : gmap string Login) : option error :=
  match Request_Cookie r "session_token", Request_Cookie r "csrf_token" with
  | Some sessionToken, Some csrfToken =>
    if authorize us sessionToken csrfToken then None else Some "Unauthorized"
  | _, _ => Some "Unauthorized"
  end.

(** The helpers' [Authorize] is the validator of the spec. *)
Definition AuthorizeAsSpecified `{H : Helpers} : Prop :=
  ∀ now r us, Authorize now r us = specAuthorize r us.

(** The pairing of the two session credentials: in every identity of the
    table, [SessionToken] is set exactly when [CSRFToken] is. *)
Definition tokens_paired (us : gmap string Login) : Prop :=
  map_Forall (λ _ u, SessionToken u = "" ↔ CSRFToken u = "") us.

#[export] Instance tokens_paired_dec us : Decision (tokens_paired us).
Proof. unfold tokens_paired. apply _. Defined.

(** ** The states the process can be in *)

(** No identity of the table has a session credential stored. *)
Definition no_session (us : gmap string Login) : Prop :=
  map_Forall (λ _ u, SessionToken u = "" ∧ CSRFToken u = "") us.

(** The process starts with [users = map[string]Login{}]; each request is
    served by the handler of its route, on a new response writer, and the
    next request finds the state that handler returned. *)
Inductive reachable `{H : Helpers} : Server → Prop :=
| reachable_start ρ :
    reachable {| users := ∅; entropy := ρ |}
| reachable_serve path (h : Handler) r now σ w' σ' :
    reachable σ →
    (path, h) ∈ Http_Server →
    h NewResponse r now σ = Served w' σ' →
    reachable σ'.

(** ** Stand-ins for the helpers, to run the handlers on concrete requests

    The random sources are a tape of strings: a generator takes the next
    one. The secret generator fails when the tape is empty. A password
    hashes to itself with a prefix; the one-time code of a secret is the
    secret itself. [PreAuthorize] accepts the pending cookie that some
    identity holds (the table has no issuance time to compare with the
    clock); [Authorize] is [specAuthorize]. *)
Module standin.

Definition nextToken (ρ : list string) : string * list string :=
  match ρ with
  | t :: ρ' => (t, ρ')
  | [] => ("", [])
  end.

Definition nextSecret (email : string) (ρ : list string)
  : (string * string * option error) * list string :=
  match ρ with
  | s :: ρ' => ((s, "otpauth://totp/" +:+ email, None), ρ')
  | [] => (("", "", Some "no entropy"), [])
  end.

Definition holdsPending (r : Request) (us : gmap string Login) : option error :=
  match Request_Cookie r "pending_2fa_token" with
  | Some t =>
    if bool_decide (t ≠ "") &&
       existsb (λ eu, bool_decide (Pending_2fa_Token eu.2 = t)) (map_to_list us)
    then None else Some "Unauthorized"
  | None => Some "Unauthorized"
  end.

Definition helpers : Helpers := {|
  Entropy := list string;
  hashedPassword := λ password ρ, (("hash:" +:+ password, None), ρ);
  checkPasswordHash := λ password hash, bool_decide (hash = "hash:" +:+ password);
  generateSecretKey := nextSecret;
  generateToken := λ _ ρ, nextToken ρ;
  verifyTOTP := λ _ secret otp, bool_decide (otp = secret);
  PreAuthorize := λ _ r us, holdsPending r us;
  Authorize := λ _ r us, specAuthorize r us;
  rangeOrder := λ _ m, map_to_list m;
  rangeOrder_perm := λ _ m, reflexivity (map_to_list m)
|}.

Definition post (form cookies : list (string * string)) : Request :=
  {| Method := MethodPost; Form := form; Cookies := cookies |}.

(** alice is registered and has passed the password step: she holds the
    pending token "P1". *)
Definition alice_pending : Login :=
  {| HashedPassword := "hash:pw1"; SessionToken := ""; CSRFToken := "";
     Pending_2fa_Token := "P1"; TOTPSecret := "K1" |}.

(** bob is registered and has a session. *)
Definition bob_session : Login :=
  {| HashedPassword := "hash:pw2"; SessionToken := "S2"; CSRFToken := "C2";
     Pending_2fa_Token := ""; TOTPSecret := "K2" |}.

Definition table : gmap string Login :=
  <["a@x.com" := alice_pending]> (<["b@x.com" := bob_session]> ∅).

Definition state0 : Server (H := helpers) :=
  @mkServer helpers table ["T1"; "T2"; "T3"; "T4"].

(** the same table, the random sources exhausted *)
Definition state_dry : Server (H := helpers) :=
  @mkServer helpers table [].

(** alice sends her pending token with the right code *)
Definition alice_2fa : Request :=
  post [("otp", "K1")] [("pending_2fa_token", "P1")].

(** alice sends her pending token with a wrong code *)
Definition alice_2fa_wrong : Request :=
  post [("otp", "000000")] [("pending_2fa_token", "P1")].

Definition alice_login : Request :=
  post [("email", "a@x.com"); ("password", "pw1")] [].

Definition bob_login : Request :=
  post [("email", "b@x.com"); ("password", "pw2")] [].

Definition bob_logout : Request :=
  post [("email", "b@x.com")] [("session_token", "S2"); ("csrf_token", "C2")].


Definition carol_register : Request :=
  post [("email", "c@x.com"); ("password", "pw3")] [].

Definition alice_register : Request :=
  post [("email", "a@x.com"); ("password", "pw1")] [].

(** alice logs in at time 0: the response and the state of that login. *)
Definition alice_login_response : ResponseWriter :=
  Encode
    (Header_Set
       (SetCookie NewResponse
          (mkCookie "pending_2fa_token" "T1" (Some (0 + 5 * time.Minute)) true))
       "Content-Type" "application/json")
    [("message", "Email and password validated. You have 5 minutes to complete TOTP Authentication.")].

Definition alice_after_login : Server (H := helpers) :=
  @mkServer helpers (<["a@x.com" := mkLogin "hash:pw1" "" "" "T1" "K1"]> table)
    ["T2"; "T3"; "T4"].

(** bob logs out at time 0: the response and the state of that logout. *)
Definition bob_logout_response : ResponseWriter :=
  Encode
    (Header_Set
       (SetCookie
          (SetCookie NewResponse (mkCookie "session_token" "" (Some 0) false))
          (mkCookie "csrf_token" "" (Some 0) false))
       "Content-Type" "application/json")
    [("message", "Logged Out")].

Definition bob_after_logout : Server (H := helpers) :=
  @mkServer helpers (<["b@x.com" := mkLogin "hash:pw2" "" "" "" "K2"]> table)
    ["T1"; "T2"; "T3"; "T4"].

(** carol registers at time 0 in [state0]: the response and the state. *)
Definition carol_register_response : ResponseWriter :=
  Encode (Header_Set NewResponse "Content-Type" "application/json")
    [("message", "Registration successful. Please setup TOTP Authentication.");
     ("qr_code_url", "otpauth://totp/c@x.com")].

Definition carol_registered : Server (H := helpers) :=
  @mkServer helpers (<["c@x.com" := mkLogin "hash:pw3" "" "" "" "T1"]> table)
    ["T2"; "T3"; "T4"].

Definition carol_login : Request :=
  post [("email", "c@x.com"); ("password", "pw3")] [].

(** carol registers again, with another password *)
Definition carol_register_again : Request :=
  post [("email", "c@x.com"); ("password", "other")] [].

(** a registration form without a password field *)
Definition register_no_password : Request :=
  post [("email", "c@x.com")] [].

(** the code of alice's secret, and no cookie *)
Definition otp_without_cookie : Request :=
  post [("otp", "K1")] [].

(** a pending token that nobody holds *)
Definition otp_unknown_token : Request :=
  post [("otp", "K1")] [("pending_2fa_token", "nope")].

(** bob's session, logging out an email that is not registered *)
Definition bob_logout_stranger : Request :=
  post [("email", "z@x.com")] [("session_token", "S2"); ("csrf_token", "C2")].


(** bob logs in with a wrong password *)
Definition bob_login_wrong : Request :=
  post [("email", "b@x.com"); ("password", "guess")] [].

(** bob logs in at time 0 in [state0]: the state of that login. *)
Definition bob_after_login : Server (H := helpers) :=
  @mkServer helpers (<["b@x.com" := mkLogin "hash:pw2" "" "" "T1" "K2"]> table)
    ["T2"; "T3"; "T4"].

(** A process from its start: carol registers, logs in, and passes the
    second factor. *)
Definition started : Server (H := helpers) :=
  @mkServer helpers ∅ ["K9"; "T1"; "T2"; "T3"].

Definition carol_step1 : Server (H := helpers) :=
  @mkServer helpers (<["c@x.com" := mkLogin "hash:pw3" "" "" "" "K9"]> ∅)
    ["T1"; "T2"; "T3"].

Definition carol_step2 : Server (H := helpers) :=
  @mkServer helpers (<["c@x.com" := mkLogin "hash:pw3" "" "" "T1" "K9"]> ∅)
    ["T2"; "T3"].

Definition carol_step3 : Server (H := helpers) :=
  @mkServer helpers (<["c@x.com" := mkLogin "hash:pw3" "" "" "T1" "K9"]> ∅) [].

Definition carol_2fa : Request :=
  post [("otp", "K9")] [("pending_2fa_token", "T1")].

End standin.

(** ** The response writer *)

Lemma Status_Error w msg code :
  Status w = 0 → code ≠ 0 → Status (Error w msg code) = code.
Proof.
  intros Hw Hc. unfold Error, Write, WriteHeader, Header_Set; simpl.
  rewrite Hw; simpl.
  destruct (decide (code = 0)) as [->|_]; [done|reflexivity].
Qed.

Lemma Body_Error w msg code :
  Body (Error w msg code) = (Body w ++ [Text msg])%list.
Proof.
  unfold Error, Write, WriteHeader, Header_Set; simpl.
  repeat (case_decide; simpl); reflexivity.
Qed.

Lemma Status_Encode w response :
  Status w = 0 → Status (Encode w response) = StatusOK.
Proof.
  intros Hw. unfold Encode, Write, WriteHeader. rewrite Hw. reflexivity.
Qed.

(** ** The handlers *)

Section properties.
Context `{H : Helpers}.
Implicit Types (w : ResponseWriter) (r : Request) (now : time.Time)
               (σ : Server) (u : Login).

(** *** Method guard *)

(** C9. Each of the five routes of [Http_Server] answers a request whose
    method is not POST with [http.Error(w, "Method not allowed", 405)] and
    returns with the state of the process (the table [users] in it) as it
    was. *)
Theorem non_POST_is_rejected path (h : Handler) r now σ :
  (path, h) ∈ Http_Server →
  Method r ≠ MethodPost →
  h NewResponse r now σ
    = Served (Error NewResponse "Method not allowed" StatusMethodNotAllowed) σ
  ∧ Status (Error NewResponse "Method not allowed" StatusMethodNotAllowed)
    = StatusMethodNotAllowed.
Proof.
  intros Hroute Hm. split; [|reflexivity].
  unfold Http_Server in Hroute.
  repeat (apply elem_of_cons in Hroute as [[= _ ->]|Hroute]);
    [..|by apply elem_of_nil in Hroute].
  all: unfold register, login, twoFactor, logout, protected.
  all: by case_decide.
Qed.

(** *** register *)

(** C4 (amended). A POST to [register] for an email that is already a key
    of [users] is answered with status 400 (BadRequest), with the message
    "email already exists" when both fields are filled, and the process
    state is the one before the call. *)
Theorem register_existing_email_is_bad_request r now σ u :
  Method r = MethodPost →
  users σ !! FormValue r "email" = Some u →
  ∃ w', register NewResponse r now σ = Served w' σ
        ∧ Status w' = StatusBadRequest
        ∧ (FormValue r "email" ≠ "" → FormValue r "password" ≠ "" →
           w' = Error NewResponse "email already exists" StatusBadRequest).
Proof.
  intros Hm Hu. unfold register.
  case_decide as Hnp; [done|].
  case_decide as Hempty.
  - eexists; split; [reflexivity|]. split; [reflexivity|].
    intros He Hp.
    destruct Hempty as [Hl|Hl];
      [destruct (FormValue r "email")|destruct (FormValue r "password")];
      done.
  - rewrite Hu. eexists; split; [reflexivity|]. split; done.
Qed.

(** *** login *)

(** C5. A login for an email that is not in [users] and a login for a
    registered email whose password does not verify end the same way: the
    same response (status 401, body "Invalid email or password", same
    headers, no cookie), each with its state unchanged. *)
Theorem login_failures_are_identical r1 r2 now1 now2 σ1 σ2 u :
  Method r1 = MethodPost →
  Method r2 = MethodPost →
  users σ1 !! FormValue r1 "email" = None →
  users σ2 !! FormValue r2 "email" = Some u →
  checkPasswordHash (FormValue r2 "password") (HashedPassword u) = false →
  ∃ w', login NewResponse r1 now1 σ1 = Served w' σ1
        ∧ login NewResponse r2 now2 σ2 = Served w' σ2
        ∧ Status w' = StatusUnauthorized
        ∧ Body w' = [Text "Invalid email or password"]
        ∧ SetCookies w' = [].
Proof.
  intros Hm1 Hm2 Hnone Hsome Hpw.
  exists (Error NewResponse "Invalid email or password" StatusUnauthorized).
  unfold login.
  do 2 (case_decide; [done|]).
  rewrite Hnone, Hsome, Hpw. done.
Qed.

(** C10. A login that succeeds assigns to [users[email]] a [Login] built
    from the stored digest, the stored TOTP secret and the new pending
    token only: whatever [SessionToken] and [CSRFToken] the identity had,
    they are the empty string afterwards. *)
Theorem login_success_resets_session r now σ u :
  Method r = MethodPost →
  users σ !! FormValue r "email" = Some u →
  checkPasswordHash (FormValue r "password") (HashedPassword u) = true →
  let pending := (generateToken 32 (entropy σ)).1 in
  let u' := {| HashedPassword := HashedPassword u; SessionToken := "";
               CSRFToken := ""; Pending_2fa_Token := pending;
               TOTPSecret := TOTPSecret u |} in
  ∃ w', login NewResponse r now σ
          = Served w' {| users := <[FormValue r "email" := u']> (users σ);
                         entropy := (generateToken 32 (entropy σ)).2 |}
        ∧ Status w' = StatusOK
        ∧ <[FormValue r "email" := u']> (users σ) !! FormValue r "email" = Some u'
        ∧ SessionToken u' = "" ∧ CSRFToken u' = "".
Proof.
  intros Hm Hu Hpw pending u'. unfold login.
  case_decide; [done|].
  rewrite Hu, Hpw; simpl.
  subst pending u'.
  destruct (generateToken 32 (entropy σ)) as [tok ρ1]; simpl.
  eexists; split; [reflexivity|].
  split; [reflexivity|].
  split; [apply lookup_insert_eq|done].
Qed.

(** *** twoFactor *)

Lemma rangeFind_Some pendingToken visit u :
  rangeFind pendingToken visit = Some u →
  ∃ e, (e, u) ∈ visit ∧ Pending_2fa_Token u = pendingToken.
Proof.
  induction visit as [|[e v] rest IH]; simpl; [done|].
  case_decide as Hp.
  - intros [= ->]. exists e. split; [left|done].
  - intros Hrest. destruct (IH Hrest) as (e' & Hin & Hu).
    exists e'. split; [by right|done].
Qed.

(** What the loop finds is a copy of a value of the table. *)
Lemma rangeFind_lookup pendingToken ρ (us : gmap string Login) u :
  rangeFind pendingToken (rangeOrder ρ us) = Some u →
  ∃ e, us !! e = Some u ∧ Pending_2fa_Token u = pendingToken.
Proof.
  intros (e & Hin & Hu)%rangeFind_Some. exists e. split; [|done].
  rewrite (rangeOrder_perm ρ us) in Hin.
  by apply elem_of_map_to_list in Hin.
Qed.

(** [twoFactor] always returns, and never assigns to [users]: on every
    path the table of the state it returns is the one it was given. *)
Lemma twoFactor_leaves_users w r now σ :
  ∃ w' ρ', twoFactor w r now σ = Served w' {| users := users σ; entropy := ρ' |}.
Proof.
  unfold twoFactor. destruct σ as [us ρ]; simpl.
  repeat first
    [ by eauto
    | case_decide
    | match goal with
      | |- context [match ?x with _ => _ end] => destruct x eqn:?; simpl
      end ].
Qed.

Lemma rangeFind_None pendingToken visit e u :
  rangeFind pendingToken visit = None →
  (e, u) ∈ visit →
  Pending_2fa_Token u ≠ pendingToken.
Proof.
  induction visit as [|[e' v] rest IH]; simpl; [by intros _ ?%elem_of_nil|].
  case_decide as Hp; [done|].
  intros Hrest [[= -> ->]|Hin]%elem_of_cons; [done|by apply IH].
Qed.

(** The accepting path, for every table: when the presented pending token is
    held and the code verifies for its holders, [twoFactor] answers 200 and
    returns the table it was given, the holder's entry as it was. *)
Lemma twoFactor_accepts_and_leaves_table r now σ pendingToken e u :
  Method r = MethodPost →
  Request_Cookie r "pending_2fa_token" = Some pendingToken →
  pendingToken ≠ "" →
  PreAuthorize now r (users σ) = None →
  users σ !! e = Some u →
  Pending_2fa_Token u = pendingToken →
  (∀ e' u', users σ !! e' = Some u' →
            Pending_2fa_Token u' = pendingToken →
            verifyTOTP now (TOTPSecret u') (FormValue r "otp") = true) →
  ∃ w' ρ', twoFactor NewResponse r now σ
             = Served w' {| users := users σ; entropy := ρ' |}
           ∧ Status w' = StatusOK
           ∧ Value <$> SetCookies w' !! 0%nat = Some (generateToken 32 (entropy σ)).1.
Proof.
  intros Hm Hc Hne Hpre Hu Hp Hotp. unfold twoFactor.
  case_decide; [done|]. rewrite Hc. case_decide; [done|]. rewrite Hpre.
  destruct (rangeFind _ _) as [v|] eqn:Hfind.
  - apply rangeFind_lookup in Hfind as (e' & Hv & Hpv).
    rewrite (Hotp e' v Hv Hpv); simpl.
    destruct (generateToken 32 (entropy σ)) as [sessionToken ρ1].
    destruct (generateToken 32 ρ1) as [csrfToken ρ2].
    by eexists _, _.
  - exfalso. eapply rangeFind_None; [exact Hfind| |exact Hp].
    rewrite (rangeOrder_perm (entropy σ) (users σ)).
    by apply elem_of_map_to_list.
Qed.

(** C3 (amended). A 2FA attempt whose one-time code verifies against no
    identity holding the presented pending token is answered 401 and
    returns the state it was given: the identity that held the pending
    token holds it still. *)
Theorem failed_2fa_attempt_keeps_pending_token r now σ pendingToken e u :
  Method r = MethodPost →
  Request_Cookie r "pending_2fa_token" = Some pendingToken →
  users σ !! e = Some u →
  Pending_2fa_Token u = pendingToken →
  (∀ e' u', users σ !! e' = Some u' →
            Pending_2fa_Token u' = pendingToken →
            verifyTOTP now (TOTPSecret u') (FormValue r "otp") = false) →
  ∃ w' σ', twoFactor NewResponse r now σ = Served w' σ'
           ∧ Status w' = StatusUnauthorized
           ∧ σ' = σ
           ∧ users σ' !! e = Some u
           ∧ Pending_2fa_Token u = pendingToken.
Proof.
  intros Hm Hc Hu Hp Hotp.
  exists (Error NewResponse "Unauthorized" StatusUnauthorized), σ.
  split; [|done].
  unfold twoFactor. case_decide; [done|]. rewrite Hc.
  case_decide; [done|].
  destruct (PreAuthorize now r (users σ)); [done|].
  destruct (rangeFind _ _) as [v|] eqn:Hfind; [|done].
  apply rangeFind_lookup in Hfind as (e' & Hv & Hpv).
  by rewrite (Hotp e' v Hv Hpv).
Qed.

(** C2 (amended). The five minutes of a pending token are the Expires
    attribute of the cookie that a successful [login] sets (the clock
    reading plus [5 * time.Minute]); the identity is stored with the token
    and without a time. The state after the login is therefore the same
    whatever the clock read, and so is the answer of [twoFactor] to any
    request at any later clock reading. *)
Theorem pending_window_is_the_cookie_expiry r t0 σ w1 σ1 :
  login NewResponse r t0 σ = Served w1 σ1 →
  Status w1 = StatusOK →
  (∃ u1, users σ1 !! FormValue r "email" = Some u1
         ∧ SetCookies w1 =
           [{| Name := "pending_2fa_token"; Value := Pending_2fa_Token u1;
               Expires := Some (t0 + 5 * time.Minute); HttpOnly := true |}])
  ∧ (∀ t0', ∃ w1', login NewResponse r t0' σ = Served w1' σ1)
  ∧ (∀ t0' w1' σ1' r2 now,
       login NewResponse r t0' σ = Served w1' σ1' →
       twoFactor NewResponse r2 now σ1' = twoFactor NewResponse r2 now σ1).
Proof.
  unfold login. case_decide; [by intros [= <- <-]|].
  destruct (users σ !! FormValue r "email") as [u|]; [|by intros [= <- <-]].
  destruct (checkPasswordHash _ _); simpl; [|by intros [= <- <-]].
  destruct (generateToken 32 (entropy σ)) as [tok ρ1].
  intros [= <- <-] _. split; [|split].
  - eexists. split; [apply lookup_insert_eq|reflexivity].
  - intros t0'. eexists. reflexivity.
  - by intros t0' w1' σ1' r2 now [= <- <-].
Qed.

(** *** register *)

(** C6 (amended). When [generateSecretKey] returns an error, [register]
    calls [log.Fatal]: the process ends and no response is written. The
    table [users] of the process at that point is the one before the call:
    nothing was assigned to it, and the digest computed just before is
    dropped. *)
Theorem register_secret_failure_is_fatal w r now σ e :
  Method r = MethodPost →
  FormValue r "email" ≠ "" →
  FormValue r "password" ≠ "" →
  users σ !! FormValue r "email" = None →
  (generateSecretKey (FormValue r "email")
     (hashedPassword (FormValue r "password") (entropy σ)).2).1.2 = Some e →
  ∃ ρ', register w r now σ
        = Fatal ("Error generating secret key:" +:+ e)
                {| users := users σ; entropy := ρ' |}.
Proof.
  intros Hm He Hp Hu Herr. unfold register.
  case_decide; [done|].
  case_decide as Hempty.
  { destruct Hempty as [Hl|Hl];
      [destruct (FormValue r "email")|destruct (FormValue r "password")];
      done. }
  rewrite Hu.
  destruct (hashedPassword _ _) as [[hashed errh] ρ1]; simpl in Herr.
  destruct (generateSecretKey _ _) as [[[secret qrURL] err] ρ2]; simpl in Herr.
  rewrite Herr. by eexists.
Qed.

(** *** logout and protected *)

Lemma authorize_true us sessionToken csrfToken :
  authorize us sessionToken csrfToken = true ↔
  ∃ e u, us !! e = Some u ∧ holdsSession sessionToken csrfToken u = true.
Proof.
  unfold authorize. rewrite existsb_exists. split.
  - intros ([e u] & Hin & Hh). exists e, u. split; [|done].
    by apply elem_of_map_to_list, list_elem_of_In.
  - intros (e & u & Hu & Hh). exists (e, u). split; [|done].
    by apply list_elem_of_In, elem_of_map_to_list.
Qed.




(** *** The pairing of the session credentials *)

Lemma tokens_paired_insert us e u :
  tokens_paired us →
  (SessionToken u = "" ↔ CSRFToken u = "") →
  tokens_paired (<[e := u]> us).
Proof. intros Hus Hu. by apply map_Forall_insert_2. Qed.

(** C8. Every route of [Http_Server] keeps the pairing: if, before the
    call, every identity of [users] has [SessionToken] set exactly when
    [CSRFToken] is set, then so has every identity of the table the
    handler returns. *)
Theorem handlers_keep_tokens_paired path (h : Handler) w r now σ w' σ' :
  (path, h) ∈ Http_Server →
  tokens_paired (users σ) →
  h w r now σ = Served w' σ' →
  tokens_paired (users σ').
Proof.
  intros Hroute Hinv Hout.
  unfold Http_Server in Hroute.
  repeat (apply elem_of_cons in Hroute as [[= _ ->]|Hroute]);
    [..|by apply elem_of_nil in Hroute].
  - (* register *)
    unfold register in Hout.
    repeat (case_decide; [by simplify_eq|]).
    destruct (users σ !! _); [by simplify_eq|].
    destruct (hashedPassword _ _) as [[hashed errh] ρ1].
    destruct (generateSecretKey _ _) as [[[secret qrURL] [err|]] ρ2]; [done|].
    injection Hout as <- <-. by apply tokens_paired_insert.
  - (* login *)
    unfold login in Hout.
    case_decide; [by simplify_eq|].
    destruct (users σ !! _); [|by simplify_eq].
    destruct (checkPasswordHash _ _); simpl in Hout; [|by simplify_eq].
    destruct (generateToken _ _) as [tok ρ1].
    injection Hout as <- <-. by apply tokens_paired_insert.
  - (* twoFactor *)
    destruct (twoFactor_leaves_users w r now σ) as (w2 & ρ2 & Heq).
    rewrite Heq in Hout. by injection Hout as <- <-.
  - (* logout *)
    unfold logout in Hout.
    case_decide; [by simplify_eq|].
    destruct (Authorize _ _ _); [by simplify_eq|].
    destruct (users σ !! _); [|by simplify_eq].
    injection Hout as <- <-. by apply tokens_paired_insert.
  - (* protected *)
    unfold protected in Hout.
    case_decide; [by simplify_eq|].
    destruct (Authorize _ _ _); by simplify_eq.
Qed.

End properties.

(** ** The handlers on concrete requests *)

Section runs.
Import standin.

#[local] Abbreviation register := (register (H := helpers)).
#[local] Abbreviation login := (login (H := helpers)).
#[local] Abbreviation twoFactor := (twoFactor (H := helpers)).
#[local] Abbreviation protected := (protected (H := helpers)).
#[local] Abbreviation logout := (logout (H := helpers)).

(** C1 (the code at the failing input). alice holds the pending token
    "P1" and sends it with the right code. The answer is 200 with the
    cookies session_token = "T1" and csrf_token = "T2"; the table is the
    one before: alice's stored [SessionToken] and [CSRFToken] are empty and
    her [Pending_2fa_Token] is still "P1"; the same request sent again is
    answered 200 again. *)
Theorem twoFactor_success_leaves_table :
  ∃ w1 σ1 w2 σ2,
    twoFactor NewResponse alice_2fa 0 state0 = Served w1 σ1
    ∧ Status w1 = StatusOK
    ∧ map (λ c, (Name c, Value c)) (SetCookies w1)
      = [("session_token", "T1"); ("csrf_token", "T2"); ("pending_2fa_token", "")]
    ∧ users σ1 = users state0
    ∧ users σ1 !! "a@x.com"
      = Some {| HashedPassword := "hash:pw1"; SessionToken := ""; CSRFToken := "";
                Pending_2fa_Token := "P1"; TOTPSecret := "K1" |}
    ∧ twoFactor NewResponse alice_2fa 0 σ1 = Served w2 σ2
    ∧ Status w2 = StatusOK.
Proof.
  do 4 eexists.
  split; [reflexivity|]. split; [reflexivity|]. split; [reflexivity|].
  split; [reflexivity|]. split; [reflexivity|]. split; reflexivity.
Qed.

(** C2 (counterexample). alice logs in at time 0 and is issued the pending
    token "T1"; the state is the one a login five minutes later would
    leave. Six minutes after the issuance the token, sent with the right
    code, is answered 200. *)
Lemma pending_token_accepted_after_six_minutes :
  ∃ w1 w1' σ1 w2 σ2,
    login NewResponse alice_login 0 state0 = Served w1 σ1
    ∧ login NewResponse alice_login (5 * time.Minute) state0 = Served w1' σ1
    ∧ (Pending_2fa_Token <$> users σ1 !! "a@x.com") = Some "T1"
    ∧ twoFactor NewResponse
        (post [("otp", "K1")] [("pending_2fa_token", "T1")])
        (6 * time.Minute) σ1 = Served w2 σ2
    ∧ Status w2 = StatusOK
    ∧ 0 + 5 * time.Minute < 6 * time.Minute.
Proof.
  do 5 eexists.
  split; [reflexivity|]. split; [reflexivity|]. split; [reflexivity|].
  split; [reflexivity|]. split; reflexivity.
Qed.

(** C3 (counterexample). alice's pending token "P1" is sent with a wrong
    code: the answer is 401 and alice still holds "P1". *)
Lemma pending_token_survives_failed_attempt :
  ∃ w1 σ1,
    twoFactor NewResponse alice_2fa_wrong 0 state0 = Served w1 σ1
    ∧ Status w1 = StatusUnauthorized
    ∧ (Pending_2fa_Token <$> users σ1 !! "a@x.com") = Some "P1".
Proof. do 2 eexists. split; [reflexivity|]. split; reflexivity. Qed.

(** C4 (counterexample). Registering alice's email again is answered 400,
    which is not [StatusConflict]. *)
Lemma register_duplicate_is_not_conflict :
  ∃ w1,
    register NewResponse alice_register 0 state0 = Served w1 state0
    ∧ Status w1 = StatusBadRequest
    ∧ Status w1 ≠ StatusConflict
    ∧ Body w1 = [Text "email already exists"].
Proof. eexists. split; [reflexivity|]. split; [reflexivity|]. split; done. Qed.

(** C6 (counterexample). With the secret generator failing, registering a
    new email ends the process: the handler does not return a response. *)
Lemma register_secret_failure_ends_process :
  register NewResponse carol_register 0 state_dry
    = Fatal "Error generating secret key:no entropy" state_dry
  ∧ (∀ w1 σ1, register NewResponse carol_register 0 state_dry ≠ Served w1 σ1).
Proof. split; [reflexivity|]. intros w1 σ1. discriminate. Qed.

(** A GET to /logout. *)
Lemma non_POST_is_rejected_witness :
  logout NewResponse {| Method := "GET"; Form := []; Cookies := [] |} 0 state0
    = Served (Error NewResponse "Method not allowed" StatusMethodNotAllowed) state0
  ∧ Status (Error NewResponse "Method not allowed" StatusMethodNotAllowed)
    = StatusMethodNotAllowed.
Proof.
  apply (non_POST_is_rejected (H := helpers) "/logout").
  - unfold Http_Server. do 3 apply list_elem_of_further. apply list_elem_of_here.
  - discriminate.
Defined.

(** alice registers again. *)
Lemma register_existing_email_witness :
  ∃ w', register NewResponse alice_register 0 state0 = Served w' state0
        ∧ Status w' = StatusBadRequest
        ∧ (FormValue alice_register "email" ≠ "" →
           FormValue alice_register "password" ≠ "" →
           w' = Error NewResponse "email already exists" StatusBadRequest).
Proof.
  apply (register_existing_email_is_bad_request (H := helpers)
           alice_register 0 state0 alice_pending); reflexivity.
Defined.

(** carol is unknown; bob sends a wrong password. *)
Lemma login_failures_are_identical_witness :
  ∃ w', login NewResponse (post [("email", "c@x.com"); ("password", "pw3")] []) 0 state0
          = Served w' state0
        ∧ login NewResponse (post [("email", "b@x.com"); ("password", "guess")] []) 7 state_dry
          = Served w' state_dry
        ∧ Status w' = StatusUnauthorized
        ∧ Body w' = [Text "Invalid email or password"]
        ∧ SetCookies w' = [].
Proof.
  apply (login_failures_are_identical (H := helpers) _ _ 0 7 state0 state_dry bob_session);
    reflexivity.
Defined.

(** bob logs in again while his session ("S2", "C2") is active. *)
Lemma login_success_resets_session_witness :
  ∃ w', login NewResponse bob_login 0 state0
          = Served w' (@mkServer helpers
                         (<["b@x.com" := mkLogin "hash:pw2" "" "" "T1" "K2"]> table)
                         ["T2"; "T3"; "T4"])
        ∧ Status w' = StatusOK
        ∧ <["b@x.com" := mkLogin "hash:pw2" "" "" "T1" "K2"]> table !! "b@x.com"
          = Some (mkLogin "hash:pw2" "" "" "T1" "K2")
        ∧ SessionToken (mkLogin "hash:pw2" "" "" "T1" "K2") = ""
        ∧ CSRFToken (mkLogin "hash:pw2" "" "" "T1" "K2") = "".
Proof.
  apply (login_success_resets_session (H := helpers) bob_login 0 state0 bob_session);
    reflexivity.
Defined.

(** alice's pending token with a wrong code. *)
Lemma failed_2fa_attempt_witness :
  ∃ w' σ', twoFactor NewResponse alice_2fa_wrong 0 state0 = Served w' σ'
           ∧ Status w' = StatusUnauthorized
           ∧ σ' = state0
           ∧ users σ' !! "a@x.com" = Some alice_pending
           ∧ Pending_2fa_Token alice_pending = "P1".
Proof.
  apply (failed_2fa_attempt_keeps_pending_token (H := helpers)
           alice_2fa_wrong 0 state0 "P1" "a@x.com" alice_pending);
    try reflexivity.
  intros e' u' Hu' Hp'. simpl.
  apply bool_decide_eq_false. intros Hk.
  unfold state0, table in Hu'; simpl in Hu'.
  rewrite lookup_insert in Hu'. case_decide.
  - injection Hu' as <-. discriminate.
  - rewrite lookup_insert in Hu'. case_decide; [|by rewrite lookup_empty in Hu'].
    injection Hu' as <-. discriminate.
Defined.

(** alice logs in at time 0. *)
Lemma pending_window_witness :
  (∃ u1, users alice_after_login !! FormValue alice_login "email" = Some u1
         ∧ SetCookies alice_login_response =
           [{| Name := "pending_2fa_token"; Value := Pending_2fa_Token u1;
               Expires := Some (0 + 5 * time.Minute); HttpOnly := true |}])
  ∧ (∀ t0', ∃ w1', login NewResponse alice_login t0' state0
                   = Served w1' alice_after_login)
  ∧ (∀ t0' w1' σ1' r2 now,
       login NewResponse alice_login t0' state0 = Served w1' σ1' →
       twoFactor NewResponse r2 now σ1'
       = twoFactor NewResponse r2 now alice_after_login).
Proof.
  apply (pending_window_is_the_cookie_expiry (H := helpers) alice_login 0 state0
           alice_login_response alice_after_login); reflexivity.
Defined.

(** carol registers while the secret generator fails. *)
Lemma register_secret_failure_witness :
  ∃ ρ', register NewResponse carol_register 0 state_dry
        = Fatal ("Error generating secret key:" +:+ "no entropy")
                (@mkServer helpers (users state_dry) ρ').
Proof.
  apply (register_secret_failure_is_fatal (H := helpers)); try reflexivity; discriminate.
Defined.




(** bob logs out of a table where the pairing holds. *)
Lemma handlers_keep_tokens_paired_witness :
  tokens_paired (users bob_after_logout).
Proof.
  apply (handlers_keep_tokens_paired (H := helpers) "/logout" logout
           NewResponse bob_logout 0 state0 bob_logout_response bob_after_logout).
  - unfold Http_Server. do 3 apply list_elem_of_further. apply list_elem_of_here.
  - apply (bool_decide_unpack _). vm_compute. exact I.
  - reflexivity.
Defined.

End runs.

(** ** Each handler, path by path *)

Section paths.
Context `{H : Helpers}.
Implicit Types (w : ResponseWriter) (r : Request) (now : time.Time)
               (σ : Server) (u : Login).

(** A form value of length 0 is the empty string. *)
Lemma length_0_empty (v : string) : String.length v = 0%nat ↔ v = "".
Proof. by destruct v. Qed.

(** *** register *)

(** X1. A POST to [register] whose email or password is empty (a field
    that the form does not have reads as the empty string) is answered 400
    "email or password is empty", before the table is looked at, and the
    state is unchanged. *)
Theorem register_rejects_empty_field r now σ :
  Method r = MethodPost →
  FormValue r "email" = "" ∨ FormValue r "password" = "" →
  register NewResponse r now σ
  = Served (Error NewResponse "email or password is empty" StatusBadRequest) σ.
Proof.
  intros Hm Hempty. unfold register.
  case_decide; [done|].
  case_decide as Hlen; [done|].
  exfalso. apply Hlen. rewrite !length_0_empty. exact Hempty.
Qed.

(** The accepting path of [register]. *)
Lemma register_accepts r now σ hashed errh ρ1 secret qrURL ρ2 :
  Method r = MethodPost →
  FormValue r "email" ≠ "" →
  FormValue r "password" ≠ "" →
  users σ !! FormValue r "email" = None →
  hashedPassword (FormValue r "password") (entropy σ) = (hashed, errh, ρ1) →
  generateSecretKey (FormValue r "email") ρ1 = (secret, qrURL, None, ρ2) →
  register NewResponse r now σ
  = Served
      (Encode (Header_Set NewResponse "Content-Type" "application/json")
         [("message", "Registration successful. Please setup TOTP Authentication.");
          ("qr_code_url", qrURL)])
      {| users := <[FormValue r "email" := mkLogin hashed "" "" "" secret]> (users σ);
         entropy := ρ2 |}.
Proof.
  intros Hm He Hp Hu Hh Hs. unfold register.
  case_decide; [done|].
  case_decide as Hlen.
  { rewrite !length_0_empty in Hlen. by destruct Hlen. }
  by rewrite Hu, Hh, Hs.
Qed.

(** X2. A POST to [register] with both fields filled and an email that is
    not in the table, when [generateSecretKey] succeeds, stores under the
    email a [Login] with the digest and the secret and no token, and answers
    200 with a JSON object carrying the provisioning URL. The error value of
    [hashedPassword] is dropped: the digest string it returned is stored
    whether hashing failed or not. *)
Theorem register_stores_digest_and_secret r now σ hashed errh ρ1 secret qrURL ρ2 :
  Method r = MethodPost →
  FormValue r "email" ≠ "" →
  FormValue r "password" ≠ "" →
  users σ !! FormValue r "email" = None →
  hashedPassword (FormValue r "password") (entropy σ) = (hashed, errh, ρ1) →
  generateSecretKey (FormValue r "email") ρ1 = (secret, qrURL, None, ρ2) →
  ∃ w' σ',
    register NewResponse r now σ = Served w' σ'
    ∧ Status w' = StatusOK
    ∧ Header w' !! "Content-Type" = Some "application/json"
    ∧ Body w' = [JSON [("message", "Registration successful. Please setup TOTP Authentication.");
                       ("qr_code_url", qrURL)]]
    ∧ SetCookies w' = []
    ∧ users σ' !! FormValue r "email"
      = Some {| HashedPassword := hashed; SessionToken := ""; CSRFToken := "";
                Pending_2fa_Token := ""; TOTPSecret := secret |}
    ∧ (∀ e, e ≠ FormValue r "email" → users σ' !! e = users σ !! e)
    ∧ entropy σ' = ρ2.
Proof.
  intros Hm He Hp Hu Hh Hs.
  eexists _, _. split; [by eapply register_accepts|]. simpl.
  split; [done|]. split; [done|]. split; [done|]. split; [done|].
  split; [apply lookup_insert_eq|]. split; [|done].
  intros e Hne. by rewrite lookup_insert_ne.
Qed.

(** An email of the table is refused by [register]. *)
Lemma register_taken r now σ u :
  Method r = MethodPost →
  users σ !! FormValue r "email" = Some u →
  ∃ w', register NewResponse r now σ = Served w' σ ∧ Status w' = StatusBadRequest.
Proof.
  intros Hm Hu. unfold register.
  case_decide; [done|].
  case_decide; [by eexists|].
  rewrite Hu. by eexists.
Qed.

(** What [register] returned when it answered 200. *)
Lemma register_ok_inv r now σ w' σ' :
  register NewResponse r now σ = Served w' σ' →
  Status w' = StatusOK →
  users σ !! FormValue r "email" = None
  ∧ ∃ hashed secret,
      users σ' = <[FormValue r "email" := mkLogin hashed "" "" "" secret]> (users σ)
      ∧ hashed = (hashedPassword (FormValue r "password") (entropy σ)).1.1.
Proof.
  unfold register.
  case_decide; [by intros [= <- <-]|].
  case_decide; [by intros [= <- <-]|].
  destruct (users σ !! FormValue r "email") eqn:Hu; [by intros [= <- <-]|].
  destruct (hashedPassword _ _) as [[hashed errh] ρ1].
  destruct (generateSecretKey _ _) as [[[secret qrURL] [err|]] ρ2]; [done|].
  intros [= <- <-] _. split; [done|]. by eexists _, _.
Qed.

(** X3. Registration succeeds at most once for an email: after a [register]
    that answered 200, every later POST to [register] with the same email,
    whatever its password, is answered 400 and leaves the state as the first
    registration left it. *)
Theorem register_twice_is_refused r now σ w1 σ1 r2 now2 :
  register NewResponse r now σ = Served w1 σ1 →
  Status w1 = StatusOK →
  Method r2 = MethodPost →
  FormValue r2 "email" = FormValue r "email" →
  ∃ w2, register NewResponse r2 now2 σ1 = Served w2 σ1
        ∧ Status w2 = StatusBadRequest.
Proof.
  intros Hreg Hok Hm2 He2.
  destruct (register_ok_inv _ _ _ _ _ Hreg Hok) as (_ & hashed & secret & Hus & _).
  eapply register_taken; [done|].
  rewrite He2, Hus. apply lookup_insert_eq.
Qed.

(** X4. [register] ends the process only through the failure of
    [generateSecretKey]: when it does, the form was accepted (POST, both
    fields filled, email not in the table), the logged message carries that
    error, and the table of the process is the one before the call. *)
Theorem register_fatal_only_on_secret_failure w r now σ v σ' :
  register w r now σ = Fatal v σ' →
  Method r = MethodPost
  ∧ FormValue r "email" ≠ "" ∧ FormValue r "password" ≠ ""
  ∧ users σ !! FormValue r "email" = None
  ∧ users σ' = users σ
  ∧ ∃ e, (generateSecretKey (FormValue r "email")
            (hashedPassword (FormValue r "password") (entropy σ)).2).1.2 = Some e
         ∧ v = "Error generating secret key:" +:+ e.
Proof.
  unfold register.
  case_decide as Hm; [done|].
  case_decide as Hlen; [done|].
  destruct (users σ !! FormValue r "email") eqn:Hu; [done|].
  destruct (hashedPassword _ _) as [[hashed errh] ρ1]; simpl.
  destruct (generateSecretKey _ _) as [[[secret qrURL] [err|]] ρ2]; [|done].
  intros [= <- <-]; simpl.
  rewrite !length_0_empty in Hlen.
  split; [by destruct (decide (Method r = MethodPost))|].
  split; [by intros ?; apply Hlen; left|].
  split; [by intros ?; apply Hlen; right|].
  split; [done|]. split; [done|]. by exists err.
Qed.

(** *** login *)

(** What [login] returned when it answered 200. *)
Lemma login_ok_inv r now σ w' σ' :
  login NewResponse r now σ = Served w' σ' →
  Status w' = StatusOK →
  ∃ u, users σ !! FormValue r "email" = Some u
       ∧ checkPasswordHash (FormValue r "password") (HashedPassword u) = true
       ∧ σ' = {| users := <[FormValue r "email" :=
                              mkLogin (HashedPassword u) "" ""
                                (generateToken 32 (entropy σ)).1 (TOTPSecret u)]> (users σ);
                 entropy := (generateToken 32 (entropy σ)).2 |}.
Proof.
  unfold login.
  case_decide as Hm; [by intros [= <- <-]|].
  destruct (users σ !! FormValue r "email") as [u|] eqn:Hu; [|by intros [= <- <-]].
  destruct (checkPasswordHash _ _) eqn:Hpw; simpl; [|by intros [= <- <-]].
  destruct (generateToken 32 (entropy σ)) as [tok ρ1].
  intros [= <- <-] _. by exists u.
Qed.

(** The accepting path of [login]. *)
Lemma login_accepts r now σ u :
  Method r = MethodPost →
  users σ !! FormValue r "email" = Some u →
  checkPasswordHash (FormValue r "password") (HashedPassword u) = true →
  ∃ w', login NewResponse r now σ
          = Served w'
              {| users := <[FormValue r "email" :=
                              mkLogin (HashedPassword u) "" ""
                                (generateToken 32 (entropy σ)).1 (TOTPSecret u)]> (users σ);
                 entropy := (generateToken 32 (entropy σ)).2 |}
        ∧ Status w' = StatusOK
        ∧ SetCookies w'
          = [{| Name := "pending_2fa_token"; Value := (generateToken 32 (entropy σ)).1;
                Expires := Some (now + 5 * time.Minute); HttpOnly := true |}].
Proof.
  intros Hm Hu Hpw. unfold login.
  case_decide; [done|]. rewrite Hu, Hpw; simpl.
  destruct (generateToken 32 (entropy σ)) as [tok ρ1]. by eexists.
Qed.

(** X5. [register] and [login] fit: after a registration that answered
    200, a POST to [login] with the same email is answered 200 exactly when
    [checkPasswordHash] accepts its password against the digest string that
    [hashedPassword] returned at registration, and 401 otherwise; on 200 the
    identity keeps that digest and holds the new pending token, which is the
    value of the cookie. *)
Theorem register_then_login r now σ w1 σ1 r2 now2 :
  register NewResponse r now σ = Served w1 σ1 →
  Status w1 = StatusOK →
  Method r2 = MethodPost →
  FormValue r2 "email" = FormValue r "email" →
  let digest := (hashedPassword (FormValue r "password") (entropy σ)).1.1 in
  let pending := (generateToken 32 (entropy σ1)).1 in
  ∃ w2 σ2,
    login NewResponse r2 now2 σ1 = Served w2 σ2
    ∧ if checkPasswordHash (FormValue r2 "password") digest
      then Status w2 = StatusOK
           ∧ (∃ u2, users σ2 !! FormValue r "email" = Some u2
                    ∧ HashedPassword u2 = digest
                    ∧ Pending_2fa_Token u2 = pending)
           ∧ Value <$> SetCookies w2 = [pending]
      else Status w2 = StatusUnauthorized ∧ σ2 = σ1.
Proof.
  intros Hreg Hok Hm2 He2 digest pending.
  destruct (register_ok_inv _ _ _ _ _ Hreg Hok) as (_ & hashed & secret & Hus & Hh).
  assert (users σ1 !! FormValue r2 "email" = Some (mkLogin hashed "" "" "" secret)) as Hu1.
  { rewrite He2, Hus. apply lookup_insert_eq. }
  subst digest pending. rewrite <-Hh.
  destruct (checkPasswordHash (FormValue r2 "password") hashed) eqn:Hpw.
  - destruct (login_accepts r2 now2 σ1 _ Hm2 Hu1 Hpw) as (w2 & Hlog & Hst & Hck).
    eexists _, _. split; [exact Hlog|]. split; [done|]. simpl. split.
    + eexists. rewrite <-He2. split; [apply lookup_insert_eq|done].
    + by rewrite Hck.
  - exists (Error NewResponse "Invalid email or password" StatusUnauthorized), σ1.
    unfold login. case_decide; [done|]. by rewrite Hu1; simpl; rewrite Hpw.
Qed.

(** X6. A login can be repeated: the request of a [login] that answered 200,
    sent again, is answered 200 again (the digest it is checked against is
    the one that was stored back), and the pending token stored afterwards is
    the newly generated one, in place of the first. *)
Theorem login_again_replaces_pending_token r now σ w1 σ1 now2 :
  login NewResponse r now σ = Served w1 σ1 →
  Status w1 = StatusOK →
  ∃ w2 σ2 u2,
    login NewResponse r now2 σ1 = Served w2 σ2
    ∧ Status w2 = StatusOK
    ∧ users σ2 !! FormValue r "email" = Some u2
    ∧ Pending_2fa_Token u2 = (generateToken 32 (entropy σ1)).1
    ∧ (∀ e, e ≠ FormValue r "email" → users σ2 !! e = users σ !! e).
Proof.
  intros Hlog Hok.
  destruct (login_ok_inv _ _ _ _ _ Hlog Hok) as (u & Hu & Hpw & Hσ1).
  assert (Method r = MethodPost) as Hm.
  { unfold login in Hlog. case_decide as Hm; [|by destruct (decide (Method r = MethodPost))].
    injection Hlog as <- <-. done. }
  assert (users σ1 !! FormValue r "email"
          = Some (mkLogin (HashedPassword u) "" "" (generateToken 32 (entropy σ)).1 (TOTPSecret u)))
    as Hu1 by (rewrite Hσ1; apply lookup_insert_eq).
  destruct (login_accepts r now2 σ1 _ Hm Hu1 Hpw) as (w2 & Hlog2 & Hst & _).
  eexists _, _, _. split; [exact Hlog2|]. split; [done|]. simpl.
  split; [apply lookup_insert_eq|]. split; [done|].
  intros e Hne. rewrite lookup_insert_ne by done.
  rewrite Hσ1; simpl. by rewrite lookup_insert_ne.
Qed.

(** *** twoFactor *)

(** X7. A POST to [twoFactor] without the cookie pending_2fa_token, or with
    an empty one, is answered 401 before [PreAuthorize] is asked and before
    the table is read: an empty cookie is never compared with the empty
    [Pending_2fa_Token] of the identities that have none. *)
Theorem twoFactor_rejects_missing_cookie r now σ :
  Method r = MethodPost →
  Request_Cookie r "pending_2fa_token" = None
  ∨ Request_Cookie r "pending_2fa_token" = Some "" →
  twoFactor NewResponse r now σ
  = Served (Error NewResponse "Unauthorized" StatusUnauthorized) σ.
Proof.
  intros Hm [Hc|Hc]; unfold twoFactor; (case_decide; [done|]); rewrite Hc; [done|].
  by case_decide.
Qed.

(** X8. A POST to [twoFactor] with a pending token that no identity of the
    table holds is answered 401 with the state unchanged, whatever
    [PreAuthorize] answers and whatever the code is. *)
Theorem twoFactor_rejects_unknown_token r now σ pendingToken :
  Method r = MethodPost →
  Request_Cookie r "pending_2fa_token" = Some pendingToken →
  (∀ e u, users σ !! e = Some u → Pending_2fa_Token u ≠ pendingToken) →
  twoFactor NewResponse r now σ
  = Served (Error NewResponse "Unauthorized" StatusUnauthorized) σ.
Proof.
  intros Hm Hc Hnone. unfold twoFactor.
  case_decide; [done|]. rewrite Hc. case_decide; [done|].
  destruct (PreAuthorize now r (users σ)); [done|].
  destruct (rangeFind _ _) as [v|] eqn:Hfind; [|done].
  apply rangeFind_lookup in Hfind as (e & Hv & Hpv).
  by destruct (Hnone e v Hv).
Qed.

(** X9. The accepting path of [twoFactor] for every table: when the
    pending token is held and the code verifies for its holders, the answer
    is 200 with three cookies, in this order: session_token (HttpOnly,
    expiring 24 hours after the clock reading) and csrf_token (not HttpOnly,
    same expiry), whose values are two successive draws of
    [generateToken(32)], and pending_2fa_token emptied and expiring at once.
    The state returned has the random sources after the two draws. *)
Theorem twoFactor_issues_session_cookies r now σ pendingToken e u :
  Method r = MethodPost →
  Request_Cookie r "pending_2fa_token" = Some pendingToken →
  pendingToken ≠ "" →
  PreAuthorize now r (users σ) = None →
  users σ !! e = Some u →
  Pending_2fa_Token u = pendingToken →
  (∀ e' u', users σ !! e' = Some u' →
            Pending_2fa_Token u' = pendingToken →
            verifyTOTP now (TOTPSecret u') (FormValue r "otp") = true) →
  let draw1 := generateToken 32 (entropy σ) in
  let draw2 := generateToken 32 draw1.2 in
  ∃ w' σ',
    twoFactor NewResponse r now σ = Served w' σ'
    ∧ Status w' = StatusOK
    ∧ SetCookies w'
      = [{| Name := "session_token"; Value := draw1.1;
            Expires := Some (now + 24 * time.Hour); HttpOnly := true |};
         {| Name := "csrf_token"; Value := draw2.1;
            Expires := Some (now + 24 * time.Hour); HttpOnly := false |};
         {| Name := "pending_2fa_token"; Value := "";
            Expires := Some now; HttpOnly := false |}]
    ∧ Body w' = [JSON [("message", "TOTP Authentication Successful.")]]
    ∧ entropy σ' = draw2.2.
Proof.
  intros Hm Hc Hne Hpre Hu Hp Hotp draw1 draw2. subst draw1 draw2.
  unfold twoFactor.
  case_decide; [done|]. rewrite Hc. case_decide; [done|]. rewrite Hpre.
  destruct (rangeFind _ _) as [v|] eqn:Hfind.
  - apply rangeFind_lookup in Hfind as (e' & Hv & Hpv).
    rewrite (Hotp e' v Hv Hpv); simpl.
    destruct (generateToken 32 (entropy σ)) as [sessionToken ρ1]; simpl.
    destruct (generateToken 32 ρ1) as [csrfToken ρ2]; simpl.
    by eexists _, _.
  - exfalso. eapply rangeFind_None; [exact Hfind| |exact Hp].
    rewrite (rangeOrder_perm (entropy σ) (users σ)).
    by apply elem_of_map_to_list.
Qed.

(** *** protected *)

(** X10. [protected] only reads: for every request it returns with the
    state it was given, and its answer is 200 exactly when the method is
    POST and [Authorize] returns no error. *)
Theorem protected_only_reads r now σ :
  ∃ w', protected NewResponse r now σ = Served w' σ
        ∧ (Status w' = StatusOK ↔
           Method r = MethodPost ∧ Authorize now r (users σ) = None).
Proof.
  unfold protected. case_decide as Hm.
  - eexists. split; [done|]. split; [done|]. by intros [? _].
  - destruct (Authorize now r (users σ)) eqn:Hauth.
    + eexists. split; [done|]. split; [done|]. by intros [_ ?].
    + eexists. split; [done|]. split; [|done]. intros _.
      by destruct (decide (Method r = MethodPost)).
Qed.

(** *** logout *)

(** X11. A POST to [logout] that [Authorize] accepts, for an email that is
    not in the table (or with no email field), is answered 404 "User not
    found" and changes nothing. *)
Theorem logout_unknown_email_is_not_found r now σ :
  Method r = MethodPost →
  Authorize now r (users σ) = None →
  users σ !! FormValue r "email" = None →
  logout NewResponse r now σ
  = Served (Error NewResponse "User not found" StatusNotFound) σ.
Proof.
  intros Hm Hauth Hu. unfold logout.
  case_decide; [done|]. by rewrite Hauth, Hu.
Qed.

(** X12. A POST to [logout] that [Authorize] accepts clears the identity
    named by the form's email: its [SessionToken] and [CSRFToken] become
    empty, its digest, TOTP secret and pending token stay, every other
    identity stays as it was, and the answer is 200 with the cookies
    session_token and csrf_token emptied and expiring at the clock reading. *)
Theorem logout_clears_named_identity r now σ u :
  Method r = MethodPost →
  Authorize now r (users σ) = None →
  users σ !! FormValue r "email" = Some u →
  ∃ w' σ',
    logout NewResponse r now σ = Served w' σ'
    ∧ Status w' = StatusOK
    ∧ users σ' !! FormValue r "email"
      = Some {| HashedPassword := HashedPassword u; SessionToken := "";
                CSRFToken := ""; Pending_2fa_Token := Pending_2fa_Token u;
                TOTPSecret := TOTPSecret u |}
    ∧ (∀ e, e ≠ FormValue r "email" → users σ' !! e = users σ !! e)
    ∧ entropy σ' = entropy σ
    ∧ SetCookies w'
      = [{| Name := "session_token"; Value := ""; Expires := Some now; HttpOnly := false |};
         {| Name := "csrf_token"; Value := ""; Expires := Some now; HttpOnly := false |}].
Proof.
  intros Hm Hauth Hu. unfold logout.
  case_decide; [done|]. rewrite Hauth, Hu.
  eexists _, _. split; [done|]. simpl. split; [done|].
  split; [apply lookup_insert_eq|]. split; [|done].
  intros e Hne. by rewrite lookup_insert_ne.
Qed.

End paths.

(** ** All routes *)

Section routes.
Context `{H : Helpers}.
Implicit Types (w : ResponseWriter) (r : Request) (now : time.Time)
               (σ : Server) (u : Login).

(** The handler of a route, one route at a time. *)
Ltac each_route Hroute :=
  unfold Http_Server in Hroute;
  repeat (apply elem_of_cons in Hroute as [[= -> ->]|Hroute]);
  [..|by apply elem_of_nil in Hroute].

(** Every way a handler call [Hout : h w r now σ = o] can have gone. *)
Ltac each_path Hout :=
  unfold register, login, twoFactor, logout, protected in Hout;
  repeat match type of Hout with
         | context [decide ?P] => destruct (decide P)
         | context [match ?x with _ => _ end] => destruct x eqn:?
         end;
  simplify_eq/=.

(** X13. No route takes an identity out of the table or changes its
    credentials: an email that is in [users] before a request is in it
    afterwards, with the same password digest and the same TOTP secret. *)
Theorem routes_keep_credentials path (h : Handler) w r now σ w' σ' e u :
  (path, h) ∈ Http_Server →
  h w r now σ = Served w' σ' →
  users σ !! e = Some u →
  ∃ u', users σ' !! e = Some u'
        ∧ HashedPassword u' = HashedPassword u
        ∧ TOTPSecret u' = TOTPSecret u.
Proof.
  intros Hroute Hout Hu. each_route Hroute; each_path Hout;
    try (by exists u);
    (destruct (decide (e = FormValue r "email")) as [->|Hne];
     [rewrite lookup_insert_eq; simplify_eq; by eexists
     |rewrite lookup_insert_ne by done; by exists u]).
Qed.

(** X14. Only [register] adds an identity: the other four routes return a
    table with the same emails as the one they were given, and [register]
    adds at most the email of its form. *)
Theorem only_register_adds path (h : Handler) w r now σ w' σ' :
  (path, h) ∈ Http_Server →
  h w r now σ = Served w' σ' →
  (path ≠ "/register" → dom (users σ') = dom (users σ))
  ∧ dom (users σ') ⊆ dom (users σ) ∪ {[FormValue r "email"]}.
Proof.
  intros Hroute Hout. each_route Hroute; each_path Hout;
    (split;
     [ intros Hp; try done; apply dom_insert_lookup_L; by eexists
     | rewrite ?dom_insert_L;
       first [ apply union_subseteq_l | by rewrite (comm_L (∪)) ] ]).
Qed.

(** X15. A request changes the table at most at the email of its form:
    for every route, every other entry of [users] is read back as it was. *)
Theorem routes_touch_only_the_form_email path (h : Handler) w r now σ w' σ' e :
  (path, h) ∈ Http_Server →
  h w r now σ = Served w' σ' →
  e ≠ FormValue r "email" →
  users σ' !! e = users σ !! e.
Proof.
  intros Hroute Hout Hne. each_route Hroute; each_path Hout;
    try done; by rewrite lookup_insert_ne.
Qed.

(** X16. An answer other than 200 has no effect: for every route, when the
    handler answers another status, the state is unchanged, no cookie is
    set, and the response is the one line of text of [http.Error] with
    Content-Type text/plain. *)
Theorem errors_change_nothing path (h : Handler) r now σ w' σ' :
  (path, h) ∈ Http_Server →
  h NewResponse r now σ = Served w' σ' →
  Status w' ≠ StatusOK →
  σ' = σ
  ∧ SetCookies w' = []
  ∧ Header w' !! "Content-Type" = Some "text/plain; charset=utf-8"
  ∧ ∃ msg, Body w' = [Text msg].
Proof.
  intros Hroute Hout Hst. each_route Hroute; each_path Hout;
    try (exfalso; apply Hst; reflexivity);
    (split; [done|]; split; [done|]; split; [reflexivity|]; by eexists).
Qed.

(** X17. A 200 answer is one JSON object with a "message" field, sent with
    Content-Type application/json, for every route. *)
Theorem ok_answers_are_json path (h : Handler) r now σ w' σ' :
  (path, h) ∈ Http_Server →
  h NewResponse r now σ = Served w' σ' →
  Status w' = StatusOK →
  Header w' !! "Content-Type" = Some "application/json"
  ∧ ∃ message rest, Body w' = [JSON (("message", message) :: rest)].
Proof.
  intros Hroute Hout Hst. each_route Hroute; each_path Hout;
    try discriminate Hst;
    (split; [reflexivity|]; by eexists _, _).
Qed.

(** X18. The statuses of the routes: whenever a handler returns, what it
    answered on a new response writer is 200, 400, 401, 404 or 405; 400 is
    answered by /register only, 404 by /logout only, and /register never
    answers 401. *)
Theorem routes_answer_known_statuses path (h : Handler) r now σ w' σ' :
  (path, h) ∈ Http_Server →
  h NewResponse r now σ = Served w' σ' →
  Status w' ∈ [StatusOK; StatusBadRequest; StatusUnauthorized; StatusNotFound;
               StatusMethodNotAllowed]
  ∧ (Status w' = StatusBadRequest → path = "/register")
  ∧ (Status w' = StatusNotFound → path = "/logout")
  ∧ (Status w' = StatusUnauthorized → path ≠ "/register").
Proof.
  intros Hroute Hout. each_route Hroute; each_path Hout;
    (split; [|split; [|split]]);
    try (apply list_elem_of_In; vm_compute; tauto);
    intros Hst; first [reflexivity | discriminate Hst | discriminate].
Qed.

(** Every route keeps the table free of session credentials. *)
Lemma routes_keep_no_session path (h : Handler) w r now σ w' σ' :
  (path, h) ∈ Http_Server →
  h w r now σ = Served w' σ' →
  no_session (users σ) →
  no_session (users σ').
Proof.
  intros Hroute Hout Hinv. each_route Hroute; each_path Hout;
    try done; by apply map_Forall_insert_2.
Qed.

(** The validator of the spec refuses every request on a table without
    session credentials. *)
Lemma no_session_is_refused r (us : gmap string Login) :
  no_session us → specAuthorize r us = Some "Unauthorized".
Proof.
  intros Hinv. unfold specAuthorize.
  destruct (Request_Cookie r "session_token") as [sessionToken|]; [|done].
  destruct (Request_Cookie r "csrf_token") as [csrfToken|]; [|done].
  destruct (authorize _ _ _) eqn:Hheld; [|done].
  apply authorize_true in Hheld as (e & u & Hu & Hh).
  apply bool_decide_eq_true in Hh as (Hne & _ & Heq & _).
  destruct (Hinv e u Hu) as [Hs _]. by rewrite Hs in Heq.
Qed.

(** The reach of the amended C7: its hypothesis (an identity that holds a
    pair of session credentials) describes a table that the handlers
    themselves never build, because [twoFactor] stores no session. With
    [Authorize] the validator of the spec, in every state the process
    reaches from the empty table both [protected] and [logout] answer 401
    to every POST. *)
Lemma reachable_states_refuse_every_session r now σ :
  AuthorizeAsSpecified →
  reachable σ →
  Method r = MethodPost →
  protected NewResponse r now σ
  = Served (Error NewResponse "Unauthorized" StatusUnauthorized) σ
  ∧ logout NewResponse r now σ
    = Served (Error NewResponse "Unauthorized" StatusUnauthorized) σ.
Proof.
  intros Hspec Hreach Hm.
  assert (no_session (users σ)) as Hinv.
  { clear r now Hm. induction Hreach as [ρ|path h r now σ w' σ' _ IH Hroute Hout].
    - apply map_Forall_empty.
    - by eapply routes_keep_no_session. }
  unfold protected, logout.
  case_decide; [contradiction|].
  by rewrite Hspec, (no_session_is_refused r _ Hinv).
Qed.

(** X19. No sequence of requests stores a session: in every state the
    process reaches from the empty table, whatever the requests and whatever
    the helpers compute, every identity has [SessionToken] and [CSRFToken]
    empty. The only handler that assigns them, [twoFactor], assigns them to
    its copy of the identity. *)
Theorem reachable_tables_hold_no_session σ :
  reachable σ → no_session (users σ).
Proof.
  induction 1 as [ρ|path h r now σ w' σ' _ IH Hroute Hout].
  - apply map_Forall_empty.
  - by eapply routes_keep_no_session.
Qed.

End routes.

(** ** The paths and the routes on concrete requests *)

Section more_runs.
Import standin.

#[local] Existing Instance helpers.

#[local] Abbreviation register := (register (H := helpers)).
#[local] Abbreviation login := (login (H := helpers)).
#[local] Abbreviation twoFactor := (twoFactor (H := helpers)).
#[local] Abbreviation protected := (protected (H := helpers)).
#[local] Abbreviation logout := (logout (H := helpers)).

(** The two identities of [table]. *)
Lemma table_lookup e u :
  table !! e = Some u →
  (e = "a@x.com" ∧ u = alice_pending) ∨ (e = "b@x.com" ∧ u = bob_session).
Proof.
  unfold table. intros Hu.
  rewrite lookup_insert in Hu. case_decide.
  - injection Hu as <-. left. by split.
  - rewrite lookup_insert in Hu. case_decide; [|by rewrite lookup_empty in Hu].
    injection Hu as <-. right. by split.
Defined.

Lemma in_routes_register : ("/register", register) ∈ Http_Server (H := helpers).
Proof. unfold Http_Server. apply list_elem_of_here. Defined.

Lemma in_routes_login : ("/login", login) ∈ Http_Server (H := helpers).
Proof. unfold Http_Server. apply list_elem_of_further, list_elem_of_here. Defined.

Lemma in_routes_2fa : ("/2fa", twoFactor) ∈ Http_Server (H := helpers).
Proof. unfold Http_Server. do 2 apply list_elem_of_further. apply list_elem_of_here. Defined.

Lemma in_routes_logout : ("/logout", logout) ∈ Http_Server (H := helpers).
Proof. unfold Http_Server. do 3 apply list_elem_of_further. apply list_elem_of_here. Defined.

Lemma in_routes_protected : ("/protected", protected) ∈ Http_Server (H := helpers).
Proof. unfold Http_Server. do 4 apply list_elem_of_further. apply list_elem_of_here. Defined.

(** A registration form without a password field. *)
Lemma register_rejects_empty_field_witness :
  register NewResponse register_no_password 0 state0
  = Served (Error NewResponse "email or password is empty" StatusBadRequest) state0.
Proof.
  apply (register_rejects_empty_field (H := helpers) register_no_password 0 state0).
  - reflexivity.
  - right. reflexivity.
Defined.

(** carol registers. *)
Lemma register_stores_digest_and_secret_witness :
  ∃ w' σ',
    register NewResponse carol_register 0 state0 = Served w' σ'
    ∧ Status w' = StatusOK
    ∧ Header w' !! "Content-Type" = Some "application/json"
    ∧ Body w' = [JSON [("message", "Registration successful. Please setup TOTP Authentication.");
                       ("qr_code_url", "otpauth://totp/c@x.com")]]
    ∧ SetCookies w' = []
    ∧ users σ' !! FormValue carol_register "email"
      = Some {| HashedPassword := "hash:pw3"; SessionToken := ""; CSRFToken := "";
                Pending_2fa_Token := ""; TOTPSecret := "T1" |}
    ∧ (∀ e, e ≠ FormValue carol_register "email" → users σ' !! e = users state0 !! e)
    ∧ entropy σ' = ["T2"; "T3"; "T4"].
Proof.
  apply (register_stores_digest_and_secret (H := helpers) carol_register 0 state0
           "hash:pw3" None ["T1"; "T2"; "T3"; "T4"]
           "T1" "otpauth://totp/c@x.com" ["T2"; "T3"; "T4"]);
    first [reflexivity | discriminate].
Defined.

(** carol registers, then registers again with another password. *)
Lemma register_twice_is_refused_witness :
  ∃ w2, register NewResponse carol_register_again 5 carol_registered
        = Served w2 carol_registered
        ∧ Status w2 = StatusBadRequest.
Proof.
  apply (register_twice_is_refused (H := helpers) carol_register 0 state0
           carol_register_response carol_registered carol_register_again 5);
    reflexivity.
Defined.

(** carol registers while the secret generator fails. *)
Lemma register_fatal_only_on_secret_failure_witness :
  Method carol_register = MethodPost
  ∧ FormValue carol_register "email" ≠ ""
  ∧ FormValue carol_register "password" ≠ ""
  ∧ users state_dry !! FormValue carol_register "email" = None
  ∧ users state_dry = users state_dry
  ∧ ∃ e, (generateSecretKey (FormValue carol_register "email")
            (hashedPassword (FormValue carol_register "password")
               (entropy state_dry)).2).1.2 = Some e
         ∧ "Error generating secret key:no entropy" = "Error generating secret key:" +:+ e.
Proof.
  apply (register_fatal_only_on_secret_failure (H := helpers) NewResponse
           carol_register 0 state_dry "Error generating secret key:no entropy" state_dry).
  reflexivity.
Defined.

(** carol registers, then logs in with the password she registered. *)
Lemma register_then_login_witness :
  ∃ w2 σ2,
    login NewResponse carol_login 1 carol_registered = Served w2 σ2
    ∧ if checkPasswordHash (FormValue carol_login "password")
           (hashedPassword (FormValue carol_register "password") (entropy state0)).1.1
      then Status w2 = StatusOK
           ∧ (∃ u2, users σ2 !! FormValue carol_register "email" = Some u2
                    ∧ HashedPassword u2
                      = (hashedPassword (FormValue carol_register "password")
                           (entropy state0)).1.1
                    ∧ Pending_2fa_Token u2 = (generateToken 32 (entropy carol_registered)).1)
           ∧ Value <$> SetCookies w2 = [(generateToken 32 (entropy carol_registered)).1]
      else Status w2 = StatusUnauthorized ∧ σ2 = carol_registered.
Proof.
  apply (register_then_login (H := helpers) carol_register 0 state0
           carol_register_response carol_registered carol_login 1);
    reflexivity.
Defined.

(** alice logs in twice. *)
Lemma login_again_replaces_pending_token_witness :
  ∃ w2 σ2 u2,
    login NewResponse alice_login 3 alice_after_login = Served w2 σ2
    ∧ Status w2 = StatusOK
    ∧ users σ2 !! FormValue alice_login "email" = Some u2
    ∧ Pending_2fa_Token u2 = (generateToken 32 (entropy alice_after_login)).1
    ∧ (∀ e, e ≠ FormValue alice_login "email" → users σ2 !! e = users state0 !! e).
Proof.
  apply (login_again_replaces_pending_token (H := helpers) alice_login 0 state0
           alice_login_response alice_after_login 3);
    reflexivity.
Defined.

(** The right code without the cookie. *)
Lemma twoFactor_rejects_missing_cookie_witness :
  twoFactor NewResponse otp_without_cookie 0 state0
  = Served (Error NewResponse "Unauthorized" StatusUnauthorized) state0.
Proof.
  apply (twoFactor_rejects_missing_cookie (H := helpers) otp_without_cookie 0 state0).
  - reflexivity.
  - left. reflexivity.
Defined.

(** A pending token that neither alice nor bob holds. *)
Lemma twoFactor_rejects_unknown_token_witness :
  twoFactor NewResponse otp_unknown_token 0 state0
  = Served (Error NewResponse "Unauthorized" StatusUnauthorized) state0.
Proof.
  apply (twoFactor_rejects_unknown_token (H := helpers) otp_unknown_token 0 state0 "nope");
    try reflexivity.
  intros e u [[_ ->]|[_ ->]]%table_lookup; discriminate.
Defined.

(** alice passes the second factor. *)
Lemma twoFactor_issues_session_cookies_witness :
  ∃ w' σ',
    twoFactor NewResponse alice_2fa 0 state0 = Served w' σ'
    ∧ Status w' = StatusOK
    ∧ SetCookies w'
      = [{| Name := "session_token"; Value := (generateToken 32 (entropy state0)).1;
            Expires := Some (0 + 24 * time.Hour); HttpOnly := true |};
         {| Name := "csrf_token";
            Value := (generateToken 32 (generateToken 32 (entropy state0)).2).1;
            Expires := Some (0 + 24 * time.Hour); HttpOnly := false |};
         {| Name := "pending_2fa_token"; Value := "";
            Expires := Some 0; HttpOnly := false |}]
    ∧ Body w' = [JSON [("message", "TOTP Authentication Successful.")]]
    ∧ entropy σ' = (generateToken 32 (generateToken 32 (entropy state0)).2).2.
Proof.
  apply (twoFactor_issues_session_cookies (H := helpers) alice_2fa 0 state0
           "P1" "a@x.com" alice_pending);
    try first [reflexivity | discriminate].
  intros e' u' [[_ ->]|[_ ->]]%table_lookup Hp; [reflexivity|discriminate].
Defined.

(** bob, with his session, logs out an email that is not registered. *)
Lemma logout_unknown_email_witness :
  logout NewResponse bob_logout_stranger 0 state0
  = Served (Error NewResponse "User not found" StatusNotFound) state0.
Proof.
  apply (logout_unknown_email_is_not_found (H := helpers) bob_logout_stranger 0 state0);
    reflexivity.
Defined.

(** bob logs out. *)
Lemma logout_clears_named_identity_witness :
  ∃ w' σ',
    logout NewResponse bob_logout 0 state0 = Served w' σ'
    ∧ Status w' = StatusOK
    ∧ users σ' !! FormValue bob_logout "email"
      = Some {| HashedPassword := HashedPassword bob_session; SessionToken := "";
                CSRFToken := ""; Pending_2fa_Token := Pending_2fa_Token bob_session;
                TOTPSecret := TOTPSecret bob_session |}
    ∧ (∀ e, e ≠ FormValue bob_logout "email" → users σ' !! e = users state0 !! e)
    ∧ entropy σ' = entropy state0
    ∧ SetCookies w'
      = [{| Name := "session_token"; Value := ""; Expires := Some 0; HttpOnly := false |};
         {| Name := "csrf_token"; Value := ""; Expires := Some 0; HttpOnly := false |}].
Proof.
  apply (logout_clears_named_identity (H := helpers) bob_logout 0 state0 bob_session);
    reflexivity.
Defined.

(** bob logs in: his digest and secret are kept. *)
Lemma routes_keep_credentials_witness :
  ∃ u', users bob_after_login !! "b@x.com" = Some u'
        ∧ HashedPassword u' = HashedPassword bob_session
        ∧ TOTPSecret u' = TOTPSecret bob_session.
Proof.
  eapply (routes_keep_credentials (H := helpers) "/login" login NewResponse
            bob_login 0 state0 _ bob_after_login "b@x.com" bob_session).
  - exact in_routes_login.
  - reflexivity.
  - reflexivity.
Defined.

(** bob logs in: the table has the same emails. *)
Lemma only_register_adds_witness :
  ("/login" ≠ "/register" → dom (users bob_after_login) = dom (users state0))
  ∧ dom (users bob_after_login) ⊆ dom (users state0) ∪ {[FormValue bob_login "email"]}.
Proof.
  eapply (only_register_adds (H := helpers) "/login" login NewResponse
            bob_login 0 state0 _ bob_after_login).
  - exact in_routes_login.
  - reflexivity.
Defined.

(** bob logs out: alice's entry is as it was. *)
Lemma routes_touch_only_the_form_email_witness :
  users bob_after_logout !! "a@x.com" = users state0 !! "a@x.com".
Proof.
  eapply (routes_touch_only_the_form_email (H := helpers) "/logout" logout NewResponse
            bob_logout 0 state0 _ bob_after_logout "a@x.com").
  - exact in_routes_logout.
  - reflexivity.
  - discriminate.
Defined.

(** bob logs in with a wrong password. *)
Lemma errors_change_nothing_witness :
  state0 = state0
  ∧ SetCookies (Error NewResponse "Invalid email or password" StatusUnauthorized) = []
  ∧ Header (Error NewResponse "Invalid email or password" StatusUnauthorized)
      !! "Content-Type" = Some "text/plain; charset=utf-8"
  ∧ ∃ msg, Body (Error NewResponse "Invalid email or password" StatusUnauthorized)
           = [Text msg].
Proof.
  apply (errors_change_nothing (H := helpers) "/login" login bob_login_wrong 0 state0
           (Error NewResponse "Invalid email or password" StatusUnauthorized) state0).
  - exact in_routes_login.
  - reflexivity.
  - discriminate.
Defined.

(** bob logs out. *)
Lemma ok_answers_are_json_witness :
  Header bob_logout_response !! "Content-Type" = Some "application/json"
  ∧ ∃ message rest, Body bob_logout_response = [JSON (("message", message) :: rest)].
Proof.
  apply (ok_answers_are_json (H := helpers) "/logout" logout bob_logout 0 state0
           bob_logout_response bob_after_logout).
  - exact in_routes_logout.
  - reflexivity.
  - reflexivity.
Defined.

(** bob, with his session, logs out an email that is not registered: 404. *)
Lemma routes_answer_known_statuses_witness :
  Status (Error NewResponse "User not found" StatusNotFound)
    ∈ [StatusOK; StatusBadRequest; StatusUnauthorized; StatusNotFound;
       StatusMethodNotAllowed]
  ∧ (Status (Error NewResponse "User not found" StatusNotFound) = StatusBadRequest →
     "/logout" = "/register")
  ∧ (Status (Error NewResponse "User not found" StatusNotFound) = StatusNotFound →
     "/logout" = "/logout")
  ∧ (Status (Error NewResponse "User not found" StatusNotFound) = StatusUnauthorized →
     "/logout" ≠ "/register").
Proof.
  apply (routes_answer_known_statuses (H := helpers) "/logout" logout
           bob_logout_stranger 0 state0
           (Error NewResponse "User not found" StatusNotFound) state0).
  - exact in_routes_logout.
  - reflexivity.
Defined.

(** carol registers, logs in and passes the second factor, from the start
    of the process. *)
Lemma carol_step3_is_reachable : reachable (H := helpers) carol_step3.
Proof.
  eapply (reachable_serve "/2fa" twoFactor carol_2fa 2 carol_step2);
    [|exact in_routes_2fa|reflexivity].
  eapply (reachable_serve "/login" login carol_login 1 carol_step1);
    [|exact in_routes_login|reflexivity].
  eapply (reachable_serve "/register" register carol_register 0 started);
    [|exact in_routes_register|reflexivity].
  apply (reachable_start (H := helpers)).
Defined.

Lemma reachable_tables_hold_no_session_witness :
  no_session (users carol_step3).
Proof.
  apply (reachable_tables_hold_no_session (H := helpers) carol_step3).
  exact carol_step3_is_reachable.
Defined.

End more_runs.

End server.
